(** * polly-pipeline: [synthesize.py]

    A shallow embedding of [src/synthesize.py] and the properties of its
    single function [main]: configuration from the process environment,
    the read-and-trim of the input file, the call to the speech synthesis
    service, the upload to object storage and the final report.

    Python values are modelled as the interpreter has them:
    - [str] is a sequence of Unicode code points ([list N]);
    - [bytes] is a sequence of bytes ([list byte]);
    - [os.environ] is a finite map from [str] to [str];
    - exceptions are a result type threaded through a small monad that
      also carries the log of the calls the program makes to the outside
      (file system, [boto3], standard output);
    - the exit status is the one the interpreter gives at shutdown, the
      flush of the standard streams included. *)

From Stdlib Require Import NArith ZArith Lia String Ascii List.
From Stdlib.Strings Require Import Byte.
From stdpp Require Import base option list countable gmap.

(** ** Python strings and bytes *)

Abbreviation pystr := (list N).
Abbreviation pybytes := (list byte).

(** An ASCII literal of the source as a Python [str]. *)
Fixpoint py (s : string) : pystr :=
  match s with
  | EmptyString => []
  | String a s' => N_of_ascii a :: py s'
  end.

(** [str.isspace] on one code point: the table of CPython's
    [_PyUnicode_IsWhitespace], which [str.strip()] without argument uses. *)
Definition isspace (c : N) : bool :=
  ((9 <=? c) && (c <=? 13)          (* \t \n \v \f \r *)
   || (28 <=? c) && (c <=? 32)      (* FS GS RS US and the space *)
   || (c =? 133)                    (* U+0085 NEXT LINE *)
   || (c =? 160)                    (* U+00A0 NO-BREAK SPACE *)
   || (c =? 5760)                   (* U+1680 *)
   || (8192 <=? c) && (c <=? 8202)  (* U+2000 .. U+200A *)
   || (c =? 8232) || (c =? 8233)    (* U+2028 U+2029 *)
   || (c =? 8239)                   (* U+202F *)
   || (c =? 8287)                   (* U+205F *)
   || (c =? 12288))%N.              (* U+3000 *)

(** [str.lstrip()], [str.rstrip()] and [str.strip()]. *)
Fixpoint lstrip (s : pystr) : pystr :=
  match s with
  | [] => []
  | c :: s' => if isspace c then lstrip s' else s
  end.

Definition rstrip (s : pystr) : pystr := rev (lstrip (rev s)).

Definition strip (s : pystr) : pystr := rstrip (lstrip s).

(** ** Exceptions and outcomes *)

(** An exception raised by code outside this program ([open], [read],
    [boto3], [botocore]); only its identity matters here. *)
Inductive ext_error : Type :=
| ExtError (name : string).

(** The exceptions that can leave [main]. *)
Inductive exc : Type :=
| KeyError (key : pystr)          (* os.environ[key], key absent *)
| SystemExit (code : Z)           (* sys.exit(code) *)
| External (e : ext_error).       (* raised by a library call *)

Inductive result (A : Type) : Type :=
| Ok (a : A)
| Raise (e : exc).
Arguments Ok {A} a.
Arguments Raise {A} e.

(** ** The outside world *)

(** A [boto3] client: the service it talks to and its region. *)
Record client : Type := Client {
  service_name : pystr;
  region_name : pystr
}.

(** The response of [synthesize_speech]: [resp["AudioStream"].read()]
    either raises or returns the audio bytes. *)
Record response : Type := Response {
  AudioStream_read : ext_error + pybytes
}.

(** What the program can observe of the outside: the environment, what
    [open(path, "r", encoding="utf-8")] and then [f.read()] do for a path
    (the text is the decoded content as [read] returns it), whether
    [boto3.client] raises for a service and a region, what the two
    services answer, and what the standard streams do: whether
    [print(msg)] raises (an encoding that cannot express [msg], an
    unbuffered stream that cannot be written), and whether the flush of
    each stream at shutdown fails (a buffered stream that cannot be
    written). *)
Record World : Type := {
  environ : gmap pystr pystr;
  fs : pystr -> ext_error + (ext_error + pystr);
  client_error : pystr -> pystr -> option ext_error;
  polly_answer : client -> pystr -> pystr -> pystr -> ext_error + response;
  s3_answer : client -> pystr -> pystr -> pybytes -> pystr -> option ext_error;
  print_error : pystr -> option ext_error;
  stdout_flush_error : bool;
  stderr_flush_error : bool
}.

(** The calls the program makes, with their arguments. *)
Inductive call : Type :=
| Open (path : pystr)
| Read (path : pystr)
| Close (path : pystr)
| Print (msg : pystr)
| Boto3Client (service region : pystr)
| SynthesizeSpeech (c : client) (Text OutputFormat VoiceId : pystr)
| StreamRead
| PutObject (c : client) (Bucket Key : pystr) (Body : pybytes) (ContentType : pystr).

(** One entry of the log: the call and the exception it raised, if any. *)
Record event : Type := Event {
  ev_call : call;
  ev_error : option ext_error
}.

Abbreviation trace := (list event).

(** ** The monad: read the world, append to the log, or raise *)

Definition M (A : Type) : Type := World -> trace -> trace * result A.

Definition ret {A} (a : A) : M A := fun _ t => (t, Ok a).

Definition bind {A B} (m : M A) (k : A -> M B) : M B :=
  fun w t =>
    match m w t with
    | (t', Ok a) => k a w t'
    | (t', Raise e) => (t', Raise e)
    end.

Definition raise {A} (e : exc) : M A := fun _ t => (t, Raise e).

Declare Scope py_scope.
Delimit Scope py_scope with py_do.
Notation "x <- c ;; k" := (bind c (fun x => k))
  (at level 100, c at next level, right associativity) : py_scope.
Notation "c ;;; k" := (bind c (fun _ => k))
  (at level 100, right associativity) : py_scope.
Open Scope py_scope.

(** An outside call [c] whose answer in the world is [r]: logged, and the
    exception, if any, raised unchanged. *)
Definition perform {A} (c : call) (r : ext_error + A) : M A :=
  fun _ t =>
    match r with
    | inl e => (t ++ [Event c (Some e)], Raise (External e))
    | inr a => (t ++ [Event c None], Ok a)
    end.

Definition status_of (o : option ext_error) : ext_error + unit :=
  match o with
  | Some e => inl e
  | None => inr tt
  end.

(** [os.environ.get(key, dflt)] *)
Definition os_environ_get (key dflt : pystr) : M pystr :=
  fun w t => (t, Ok (default dflt (environ w !! key))).

(** [os.environ[key]] *)
Definition os_environ_getitem (key : pystr) : M pystr :=
  fun w t =>
    match environ w !! key with
    | Some v => (t, Ok v)
    | None => (t, Raise (KeyError key))
    end.

(** An open text file: its path and what [read()] will do. *)
Record file : Type := File {
  f_path : pystr;
  f_content : ext_error + pystr
}.

(** [open(path, "r", encoding="utf-8")] *)
Definition py_open (path : pystr) : M file :=
  fun w t =>
    perform (Open path)
      (match fs w path with
       | inl e => inl e
       | inr content => inr (File path content)
       end) w t.

(** [f.read()] *)
Definition f_read (f : file) : M pystr :=
  perform (Read (f_path f)) (f_content f).

(** [with open(path, ...) as f: body]: the file is closed when the body is
    left, by its end or by an exception, and the exception goes on. *)
Definition with_open {A} (path : pystr) (body : file -> M A) : M A :=
  fun w t =>
    match py_open path w t with
    | (t1, Raise e) => (t1, Raise e)
    | (t1, Ok f) =>
        let '(t2, r) := body f w t1 in
        (t2 ++ [Event (Close path) None], r)
    end.

(** [print(msg)] *)
Definition print (msg : pystr) : M unit :=
  fun w t => perform (Print msg) (status_of (print_error w msg)) w t.

(** [sys.exit(code)] *)
Definition sys_exit {A} (code : Z) : M A := raise (SystemExit code).

(** [boto3.client(service, region_name=region)] *)
Definition boto3_client (service region : pystr) : M client :=
  fun w t =>
    perform (Boto3Client service region)
      (match client_error w service region with
       | Some e => inl e
       | None => inr (Client service region)
       end) w t.

(** [c.synthesize_speech(Text=.., OutputFormat=.., VoiceId=..)] *)
Definition synthesize_speech (c : client) (Text OutputFormat VoiceId : pystr)
  : M response :=
  fun w t =>
    perform (SynthesizeSpeech c Text OutputFormat VoiceId)
      (polly_answer w c Text OutputFormat VoiceId) w t.

(** [resp["AudioStream"].read()] *)
Definition audio_stream_read (resp : response) : M pybytes :=
  perform StreamRead (AudioStream_read resp).

(** [c.put_object(Bucket=.., Key=.., Body=.., ContentType=..)] *)
Definition put_object (c : client) (Bucket Key : pystr) (Body : pybytes)
    (ContentType : pystr) : M unit :=
  fun w t =>
    perform (PutObject c Bucket Key Body ContentType)
      (status_of (s3_answer w c Bucket Key Body ContentType)) w t.

(** ** The program *)

(** Lines 10-23 of [main], as a function of the five locals that lines
    4-8 assign. *)
Definition main_body (text_file s3_bucket s3_key voice_id region : pystr) : M unit :=
  text <- with_open text_file (fun f =>
            content <- f_read f ;;
            let text := strip content in
            match text with
            | [] => print (py "Text file is empty.") ;;; sys_exit 1
            | _ :: _ => ret text
            end) ;;
  polly <- boto3_client (py "polly") region ;;
  resp <- synthesize_speech polly text (py "mp3") voice_id ;;
  audio <- audio_stream_read resp ;;
  s3 <- boto3_client (py "s3") region ;;
  put_object s3 s3_bucket s3_key audio (py "audio/mpeg") ;;;
  print (py "Uploaded s3://" ++ s3_bucket ++ py "/" ++ s3_key).

(** [main()] *)
Definition main : M unit :=
  text_file <- os_environ_get (py "TEXT_FILE") (py "speech.txt") ;;
  s3_bucket <- os_environ_getitem (py "S3_BUCKET") ;;
  s3_key <- os_environ_getitem (py "S3_KEY") ;;
  voice_id <- os_environ_get (py "VOICE_ID") (py "Joanna") ;;
  region <- os_environ_get (py "AWS_REGION") (py "us-east-1") ;;
  main_body text_file s3_bucket s3_key voice_id region.

(** The run of the script: [main()] from an empty log. *)
Definition run (w : World) : trace * result unit := main w [].

(** Whether [print] was called: standard output then has something to
    flush at shutdown. *)
Definition printed (t : trace) : bool :=
  existsb (fun ev => match ev_call ev with Print _ => true | _ => false end) t.

(** Whether the interpreter writes a traceback to standard error: it
    does for an exception that nobody caught, and not for [sys.exit]
    with an integer. *)
Definition traceback (r : result unit) : bool :=
  match r with
  | Ok _ => false
  | Raise (SystemExit _) => false
  | Raise _ => true
  end.

(** The exit status of the interpreter for a run: 120 when the flush of
    a standard stream that was written to fails at shutdown; otherwise 0
    when [main] returns, the code of [sys.exit], and 1 (after the
    traceback) for any other exception that nobody caught. *)
Definition exit_status (w : World) (r : trace * result unit) : Z :=
  if printed r.1 && stdout_flush_error w || traceback r.2 && stderr_flush_error w
  then 120
  else
    match r.2 with
    | Ok _ => 0
    | Raise (SystemExit code) => code
    | Raise _ => 1
    end.

(** ** Vocabulary for the statements *)

Arguments py : simpl never.

(** The settings as lines 4, 7 and 8 resolve them. *)
Definition configured_text_file (w : World) : pystr :=
  default (py "speech.txt") (environ w !! py "TEXT_FILE").

Definition configured_voice (w : World) : pystr :=
  default (py "Joanna") (environ w !! py "VOICE_ID").

Definition configured_region (w : World) : pystr :=
  default (py "us-east-1") (environ w !! py "AWS_REGION").

Definition calls (t : trace) : list call := map ev_call t.

Definition is_synthesize (c : call) : bool :=
  match c with SynthesizeSpeech _ _ _ _ => true | _ => false end.

Definition is_put (c : call) : bool :=
  match c with PutObject _ _ _ _ _ => true | _ => false end.

Definition is_close (c : call) : bool :=
  match c with Close _ => true | _ => false end.

Definition is_file_access (c : call) : bool :=
  match c with Open _ | Read _ | Close _ => true | _ => false end.

(** Everything that goes through [boto3]; building a client is counted
    too. *)
Definition is_network (c : call) : bool :=
  match c with
  | Boto3Client _ _ | SynthesizeSpeech _ _ _ _ | StreamRead | PutObject _ _ _ _ _ => true
  | _ => false
  end.

(** The operation a call is an attempt of, whatever its arguments. *)
Inductive operation : Type :=
| OpOpen | OpRead | OpClose | OpPrint
| OpClient (service : pystr)
| OpSynthesize | OpStreamRead | OpPut.

Definition operation_of (c : call) : operation :=
  match c with
  | Open _ => OpOpen
  | Read _ => OpRead
  | Close _ => OpClose
  | Print _ => OpPrint
  | Boto3Client service _ => OpClient service
  | SynthesizeSpeech _ _ _ _ => OpSynthesize
  | StreamRead => OpStreamRead
  | PutObject _ _ _ _ _ => OpPut
  end.

(** What the program still did after the first call that raised. *)
Fixpoint after_first_error (t : trace) : trace :=
  match t with
  | [] => []
  | ev :: t' =>
      match ev_error ev with
      | Some _ => t'
      | None => after_first_error t'
      end
  end.

(** Where lines 10-23 put their five locals: every call of the run has
    them in the place the source gives them. *)
Definition placed (text_file s3_bucket s3_key voice_id region : pystr) (c : call)
  : Prop :=
  match c with
  | Open p | Read p | Close p => p = text_file
  | Print _ | StreamRead => True
  | Boto3Client _ r => r = region
  | SynthesizeSpeech cl _ fmt v =>
      cl = Client (py "polly") region /\ fmt = py "mp3" /\ v = voice_id
  | PutObject cl b k _ ct =>
      cl = Client (py "s3") region /\ b = s3_bucket /\ k = s3_key
      /\ ct = py "audio/mpeg"
  end.

(** ** Concrete worlds *)

Definition all_is_well (env : gmap pystr pystr) (content : pystr) (audio : pybytes)
  : World := {|
  environ := env;
  fs := fun _ => inr (inr content);
  client_error := fun _ _ => None;
  polly_answer := fun _ _ _ _ => inr (Response (inr audio));
  s3_answer := fun _ _ _ _ _ => None;
  print_error := fun _ => None;
  stdout_flush_error := false;
  stderr_flush_error := false
|}.

Definition hello_env : gmap pystr pystr :=
  list_to_map [(py "S3_BUCKET", py "my-bucket"); (py "S3_KEY", py "out/hello.mp3")].

Definition hello_audio : pybytes := [x49; x44; x33].

(** The first scenario of the specification. *)
Definition hello_world : World :=
  all_is_well hello_env (py "  Hello world" ++ [10%N]) hello_audio.

(** The second scenario: the file holds three spaces, a newline and two
    spaces. *)
Definition blank_world : World :=
  all_is_well hello_env (py "   " ++ [10%N] ++ py "  ") hello_audio.

(** [VOICE_ID], [AWS_REGION] and [TEXT_FILE] set, the first one to the
    empty string. *)
Definition custom_world : World :=
  all_is_well
    (list_to_map [(py "S3_BUCKET", py "b"); (py "S3_KEY", py "k");
                  (py "VOICE_ID", []); (py "AWS_REGION", py "eu-west-1");
                  (py "TEXT_FILE", py "in.txt")])
    (py "hi") hello_audio.

(** No [S3_KEY], and no input file either. *)
Definition no_key_world : World := {|
  environ := list_to_map [(py "S3_BUCKET", py "my-bucket")];
  fs := fun _ => inl (ExtError "FileNotFoundError");
  client_error := fun _ _ => None;
  polly_answer := fun _ _ _ _ => inr (Response (inr hello_audio));
  s3_answer := fun _ _ _ _ _ => None;
  print_error := fun _ => None;
  stdout_flush_error := false;
  stderr_flush_error := false
|}.

(** The upload is refused. *)
Definition upload_fails_world : World := {|
  environ := hello_env;
  fs := fun _ => inr (inr (py "Hello world"));
  client_error := fun _ _ => None;
  polly_answer := fun _ _ _ _ => inr (Response (inr hello_audio));
  s3_answer := fun _ _ _ _ _ => Some (ExtError "ClientError");
  print_error := fun _ => None;
  stdout_flush_error := false;
  stderr_flush_error := false
|}.

(** ** Vocabulary for the settings *)

(** [path] is the input file of the run: no other file is opened, and
    with the required settings present the run starts by opening it. *)
Definition opens_file (w : World) (path : pystr) : Prop :=
  (forall p e, In (Event (Open p) e) (run w).1 -> p = path)
  /\ (forall b k,
         environ w !! py "S3_BUCKET" = Some b ->
         environ w !! py "S3_KEY" = Some k ->
         exists e, head (run w).1 = Some (Event (Open path) e)).

(** [region] is the region of the run: every client is built with it,
    and a run that has text to synthesize asks [boto3.client] for the
    ["polly"] client of [region]. *)
Definition uses_region (w : World) (region : pystr) : Prop :=
  (forall service r e, In (Event (Boto3Client service r) e) (run w).1 -> r = region)
  /\ (forall b k content,
         environ w !! py "S3_BUCKET" = Some b ->
         environ w !! py "S3_KEY" = Some k ->
         fs w (configured_text_file w) = inr (inr content) ->
         strip content <> [] ->
         exists e, In (Event (Boto3Client (py "polly") region) e) (run w).1).

(** [voice] is the voice of the run: every call of [synthesize_speech]
    has it as [VoiceId], and a run that has text to synthesize and its
    client built makes that call with [voice]. *)
Definition uses_voice (w : World) (voice : pystr) : Prop :=
  (forall c text fmt v e,
      In (Event (SynthesizeSpeech c text fmt v) e) (run w).1 -> v = voice)
  /\ (forall b k content,
         environ w !! py "S3_BUCKET" = Some b ->
         environ w !! py "S3_KEY" = Some k ->
         fs w (configured_text_file w) = inr (inr content) ->
         strip content <> [] ->
         client_error w (py "polly") (configured_region w) = None ->
         exists e,
           In (Event (SynthesizeSpeech (Client (py "polly") (configured_region w))
                        (strip content) (py "mp3") voice) e) (run w).1).

(** ** Vocabulary for the paths through [main] *)

Definition has_error (ev : event) : bool :=
  match ev_error ev with
  | Some _ => true
  | None => false
  end.

(** The operations of lines 10-23 in the order of the source, and the
    ones of the early exit of lines 12-14. *)
Definition full_pipeline : list operation :=
  [OpOpen; OpRead; OpClose; OpClient (py "polly"); OpSynthesize;
   OpStreamRead; OpClient (py "s3"); OpPut; OpPrint].

Definition blank_pipeline : list operation :=
  [OpOpen; OpRead; OpPrint; OpClose].

(** The input file cannot be opened. *)
Definition no_file_world : World := {|
  environ := hello_env;
  fs := fun _ => inl (ExtError "FileNotFoundError");
  client_error := fun _ _ => None;
  polly_answer := fun _ _ _ _ => inr (Response (inr hello_audio));
  s3_answer := fun _ _ _ _ _ => None;
  print_error := fun _ => None;
  stdout_flush_error := false;
  stderr_flush_error := false
|}.

(** The input file opens and [read()] raises. *)
Definition bad_encoding_world : World := {|
  environ := hello_env;
  fs := fun _ => inr (inl (ExtError "UnicodeDecodeError"));
  client_error := fun _ _ => None;
  polly_answer := fun _ _ _ _ => inr (Response (inr hello_audio));
  s3_answer := fun _ _ _ _ _ => None;
  print_error := fun _ => None;
  stdout_flush_error := false;
  stderr_flush_error := false
|}.

(** Neither required setting is in the environment. *)
Definition bare_world : World := all_is_well ∅ (py "Hello world") hello_audio.

(** [AWS_REGION] is set to the empty string and [boto3.client] refuses
    to build a client without a region. *)
Definition no_region_world : World := {|
  environ := <[py "AWS_REGION" := []]> hello_env;
  fs := fun _ => inr (inr (py "Hello world"));
  client_error := fun _ region =>
    match region with
    | [] => Some (ExtError "NoRegionError")
    | _ :: _ => None
    end;
  polly_answer := fun _ _ _ _ => inr (Response (inr hello_audio));
  s3_answer := fun _ _ _ _ _ => None;
  print_error := fun _ => None;
  stdout_flush_error := false;
  stderr_flush_error := false
|}.

(** The synthesis call answers and the read of its audio stream
    breaks. *)
Definition broken_stream_world : World := {|
  environ := hello_env;
  fs := fun _ => inr (inr (py "Hello world"));
  client_error := fun _ _ => None;
  polly_answer := fun _ _ _ _ =>
    inr (Response (inl (ExtError "ResponseStreamingError")));
  s3_answer := fun _ _ _ _ _ => None;
  print_error := fun _ => None;
  stdout_flush_error := false;
  stderr_flush_error := false
|}.

(** A blank input file, and a buffered standard output that cannot be
    written: [print] fills the buffer and the flush at shutdown fails. *)
Definition blank_full_stdout_world : World := {|
  environ := hello_env;
  fs := fun _ => inr (inr (py "   " ++ [10%N] ++ py "  "));
  client_error := fun _ _ => None;
  polly_answer := fun _ _ _ _ => inr (Response (inr hello_audio));
  s3_answer := fun _ _ _ _ _ => None;
  print_error := fun _ => None;
  stdout_flush_error := true;
  stderr_flush_error := false
|}.

(** Both services answer, and [print] raises: an unbuffered standard
    output that cannot be written. *)
Definition unwritable_stdout_world : World := {|
  environ := hello_env;
  fs := fun _ => inr (inr (py "Hello world"));
  client_error := fun _ _ => None;
  polly_answer := fun _ _ _ _ => inr (Response (inr hello_audio));
  s3_answer := fun _ _ _ _ _ => None;
  print_error := fun _ => Some (ExtError "OSError");
  stdout_flush_error := false;
  stderr_flush_error := false
|}.

(** ** Tactics to run the program *)

Ltac unfold_program :=
  unfold run, main, main_body, with_open, py_open, f_read, print, sys_exit,
    boto3_client, synthesize_speech, audio_stream_read, put_object,
    os_environ_get, os_environ_getitem, bind, ret, raise, perform, status_of,
    configured_text_file, configured_voice, configured_region in *.

(** One more answer of the world decided. *)
Ltac answer :=
  match goal with
  | |- context [match ?x with _ => _ end] =>
      lazymatch x with
      | environ _ !! _ => destruct x eqn:?
      | fs _ _ => destruct x as [?|[?|?]] eqn:?
      | strip _ => destruct x eqn:?
      | client_error _ _ _ => destruct x eqn:?
      | polly_answer _ _ _ _ _ => destruct x eqn:?
      | AudioStream_read _ => destruct x eqn:?
      | s3_answer _ _ _ _ _ _ => destruct x eqn:?
      | print_error _ _ => destruct x eqn:?
      end
  end; simpl.

Ltac all_runs := unfold_program; simpl; repeat answer.

(** The cases of an event being in a log that is known. *)
Ltac in_log H :=
  simpl in H;
  repeat (destruct H as [H|H]; try discriminate H);
  try contradiction.

(** * Properties *)

(** ** Trimming *)

Lemma lstrip_split (s : pystr) :
  exists ws, s = ws ++ lstrip s /\ forallb isspace ws = true.
Proof.
  induction s as [|c s [ws [Hs Hws]]]; simpl.
  - exists []. split; reflexivity.
  - destruct (isspace c) eqn:Hc.
    + exists (c :: ws). simpl. rewrite Hc, Hws. split; [congruence | reflexivity].
    + exists []. split; reflexivity.
Qed.

Lemma lstrip_head (s : pystr) (c : N) (s' : pystr) :
  lstrip s = c :: s' -> isspace c = false.
Proof.
  induction s as [|d s IH]; simpl; [discriminate|].
  destruct (isspace d) eqn:Hd; [exact IH|].
  intros [= <- _]. exact Hd.
Qed.

Lemma lstrip_nil_iff (s : pystr) :
  lstrip s = [] <-> forallb isspace s = true.
Proof.
  induction s as [|c s IH]; simpl; [tauto|].
  destruct (isspace c); simpl; [exact IH|].
  split; discriminate.
Qed.

Lemma lstrip_fixed (s : pystr) (c : N) (s' : pystr) :
  s = c :: s' -> isspace c = false -> lstrip s = s.
Proof. intros -> Hc. simpl. rewrite Hc. reflexivity. Qed.

Lemma forallb_isspace_rev (s : pystr) :
  forallb isspace (rev s) = forallb isspace s.
Proof.
  induction s as [|c s IH]; simpl; [reflexivity|].
  rewrite forallb_app, IH. simpl. rewrite andb_true_r. apply andb_comm.
Qed.

(** [strip] gives the empty string exactly on the strings made of
    whitespace only (the empty one included). *)
Lemma strip_nil_iff (s : pystr) :
  strip s = [] <-> forallb isspace s = true.
Proof.
  unfold strip, rstrip. split.
  - intros H.
    assert (Hr : lstrip (rev (lstrip s)) = []).
    { apply (f_equal (@rev N)) in H. rewrite rev_involutive in H. exact H. }
    apply lstrip_nil_iff in Hr. rewrite forallb_isspace_rev in Hr.
    destruct (lstrip s) as [|c s'] eqn:Hl.
    + apply lstrip_nil_iff. exact Hl.
    + apply lstrip_head in Hl. simpl in Hr. rewrite Hl in Hr. discriminate.
  - intros H. apply lstrip_nil_iff in H. rewrite H. reflexivity.
Qed.

(** [strip s] is [s] without a run of whitespace at each end, and it
    neither starts nor ends with whitespace. *)
Lemma strip_split (s : pystr) :
  exists l r,
    s = l ++ strip s ++ r
    /\ forallb isspace l = true /\ forallb isspace r = true
    /\ (forall c s', strip s = c :: s' -> isspace c = false)
    /\ (forall c s', strip s = s' ++ [c] -> isspace c = false).
Proof.
  destruct (lstrip_split s) as [l [Hs Hl]].
  destruct (lstrip_split (rev (lstrip s))) as [r [Hrs Hr]].
  exists l, (rev r). unfold strip, rstrip.
  assert (Hmid : lstrip s = rev (lstrip (rev (lstrip s))) ++ rev r).
  { rewrite <- rev_app_distr, <- Hrs, rev_involutive. reflexivity. }
  split; [rewrite <- Hmid; exact Hs|].
  split; [exact Hl|].
  split; [rewrite forallb_isspace_rev; exact Hr|].
  split.
  - intros c s' H. rewrite H in Hmid. simpl in Hmid.
    exact (lstrip_head _ _ _ Hmid).
  - intros c s' H.
    apply (f_equal (@rev N)) in H.
    rewrite rev_involutive, rev_app_distr in H. simpl in H.
    exact (lstrip_head _ _ _ H).
Qed.

(** ** Running [main] *)

(** With both required settings present, [main] is its lines 10-23 run
    on the resolved settings. *)
Lemma main_resolved (w : World) (b k : pystr) (t : trace) :
  environ w !! py "S3_BUCKET" = Some b ->
  environ w !! py "S3_KEY" = Some k ->
  main w t =
    main_body (configured_text_file w) b k (configured_voice w) (configured_region w) w t.
Proof.
  intros Hb Hk. unfold main, bind, os_environ_get, os_environ_getitem.
  rewrite Hb, Hk. reflexivity.
Qed.

(** Without a required setting [main] raises [KeyError] at line 5 or 6,
    with an empty log. *)
Lemma main_unconfigured (w : World) :
  environ w !! py "S3_BUCKET" = None \/ environ w !! py "S3_KEY" = None ->
  run w = ([], Raise (KeyError (py "S3_BUCKET")))
  \/ run w = ([], Raise (KeyError (py "S3_KEY"))).
Proof.
  intros H. unfold run, main, bind, os_environ_get, os_environ_getitem.
  destruct (environ w !! py "S3_BUCKET") as [b|] eqn:Hb.
  - destruct H as [H|H]; [discriminate H|]. rewrite H. right. reflexivity.
  - left. reflexivity.
Qed.

Lemma main_body_arguments (text_file s3_bucket s3_key voice_id region : pystr)
    (w : World) :
  List.Forall (placed text_file s3_bucket s3_key voice_id region)
    (calls (main_body text_file s3_bucket s3_key voice_id region w []).1).
Proof.
  all_runs; repeat (apply List.Forall_cons; [simpl; auto|]); apply List.Forall_nil.
Qed.

(** The first scenario of the specification, in full. *)
Example hello_world_run :
  run hello_world =
    ([Event (Open (py "speech.txt")) None;
      Event (Read (py "speech.txt")) None;
      Event (Close (py "speech.txt")) None;
      Event (Boto3Client (py "polly") (py "us-east-1")) None;
      Event (SynthesizeSpeech (Client (py "polly") (py "us-east-1"))
               (py "Hello world") (py "mp3") (py "Joanna")) None;
      Event StreamRead None;
      Event (Boto3Client (py "s3") (py "us-east-1")) None;
      Event (PutObject (Client (py "s3") (py "us-east-1"))
               (py "my-bucket") (py "out/hello.mp3") hello_audio (py "audio/mpeg")) None;
      Event (Print (py "Uploaded s3://my-bucket/out/hello.mp3")) None],
     Ok tt).
Proof. vm_compute. reflexivity. Qed.

(** An environment variable set to the empty string reaches the call. *)
Example custom_world_voice :
  List.filter is_synthesize (calls (run custom_world).1) =
    [SynthesizeSpeech (Client (py "polly") (py "eu-west-1"))
       (py "hi") (py "mp3") []].
Proof. vm_compute. reflexivity. Qed.

(** ** Synthesis (lines 16-17) *)

(** C1, amended. When the required settings are present, the input file reads as
    [content], [content] trimmed is not empty and the synthesis client is
    built, [synthesize_speech] is called exactly once in the run, with
    the trimmed text as [Text], ["mp3"] as [OutputFormat] and the
    configured voice as [VoiceId]. *)
Theorem C1_synthesis_called_once_with_trimmed_text
    (w : World) (b k content : pystr) :
  environ w !! py "S3_BUCKET" = Some b ->
  environ w !! py "S3_KEY" = Some k ->
  fs w (configured_text_file w) = inr (inr content) ->
  strip content <> [] ->
  client_error w (py "polly") (configured_region w) = None ->
  List.filter is_synthesize (calls (run w).1) =
    [SynthesizeSpeech (Client (py "polly") (configured_region w))
       (strip content) (py "mp3") (configured_voice w)].
Proof.
  intros Hb Hk Hfs Hne Hc.
  unfold run. rewrite (main_resolved w b k [] Hb Hk).
  unfold_program. rewrite Hfs. simpl.
  destruct (strip content) as [|c0 text] eqn:Hs; [congruence|].
  simpl. rewrite Hc. simpl.
  repeat answer; reflexivity.
Qed.

Lemma C1_witness :
  List.filter is_synthesize (calls (run hello_world).1) =
    [SynthesizeSpeech (Client (py "polly") (py "us-east-1"))
       (py "Hello world") (py "mp3") (py "Joanna")].
Proof.
  apply (C1_synthesis_called_once_with_trimmed_text hello_world
           (py "my-bucket") (py "out/hello.mp3") (py "  Hello world" ++ [10%N])).
  - vm_compute. reflexivity.
  - vm_compute. reflexivity.
  - vm_compute. reflexivity.
  - vm_compute. discriminate.
  - vm_compute. reflexivity.
Defined.

(** C1 as it is worded does not hold: with the required settings
    present and a file that reads [Hello world], a run in which
    [boto3.client] raises for the configured region never calls
    [synthesize_speech]. *)
Lemma C1_counterexample :
  environ no_region_world !! py "S3_BUCKET" = Some (py "my-bucket")
  /\ environ no_region_world !! py "S3_KEY" = Some (py "out/hello.mp3")
  /\ fs no_region_world (configured_text_file no_region_world)
     = inr (inr (py "Hello world"))
  /\ strip (py "Hello world") <> []
  /\ List.filter is_synthesize (calls (run no_region_world).1) = [].
Proof.
  repeat split; try (vm_compute; reflexivity). vm_compute. discriminate.
Qed.

(** ** Upload (lines 20-21) *)

(** C2, amended. When the synthesis has succeeded, that is the call of line 17
    answered [resp] and reading its audio stream gave [audio], and the
    storage client is built, [put_object] is called exactly once in the
    run, with the configured bucket and key, [audio] itself as [Body] and
    ["audio/mpeg"] as [ContentType]. *)
Theorem C2_upload_called_once_with_audio
    (w : World) (b k content : pystr) (resp : response) (audio : pybytes) :
  environ w !! py "S3_BUCKET" = Some b ->
  environ w !! py "S3_KEY" = Some k ->
  fs w (configured_text_file w) = inr (inr content) ->
  strip content <> [] ->
  client_error w (py "polly") (configured_region w) = None ->
  polly_answer w (Client (py "polly") (configured_region w))
    (strip content) (py "mp3") (configured_voice w) = inr resp ->
  AudioStream_read resp = inr audio ->
  client_error w (py "s3") (configured_region w) = None ->
  List.filter is_put (calls (run w).1) =
    [PutObject (Client (py "s3") (configured_region w)) b k audio (py "audio/mpeg")].
Proof.
  intros Hb Hk Hfs Hne Hc Hp Ha Hs3.
  unfold run. rewrite (main_resolved w b k [] Hb Hk).
  unfold_program. rewrite Hfs. simpl.
  destruct (strip content) as [|c0 text] eqn:Hs; [congruence|].
  simpl. rewrite Hc. simpl. rewrite Hp. simpl. rewrite Ha. simpl.
  rewrite Hs3. simpl.
  repeat answer; reflexivity.
Qed.

Lemma C2_witness :
  List.filter is_put (calls (run hello_world).1) =
    [PutObject (Client (py "s3") (py "us-east-1"))
       (py "my-bucket") (py "out/hello.mp3") hello_audio (py "audio/mpeg")].
Proof.
  apply (C2_upload_called_once_with_audio hello_world
           (py "my-bucket") (py "out/hello.mp3") (py "  Hello world" ++ [10%N])
           (Response (inr hello_audio)) hello_audio).
  - vm_compute. reflexivity.
  - vm_compute. reflexivity.
  - vm_compute. reflexivity.
  - vm_compute. discriminate.
  - vm_compute. reflexivity.
  - vm_compute. reflexivity.
  - vm_compute. reflexivity.
  - vm_compute. reflexivity.
Defined.

(** C2 as it is worded does not hold: in a run in which the synthesis
    call has succeeded and the read of its audio stream raises,
    [put_object] is never called. *)
Lemma C2_counterexample :
  In (Event (SynthesizeSpeech (Client (py "polly") (py "us-east-1"))
               (py "Hello world") (py "mp3") (py "Joanna")) None)
     (run broken_stream_world).1
  /\ List.filter is_put (calls (run broken_stream_world).1) = [].
Proof.
  split.
  - vm_compute. tauto.
  - vm_compute. reflexivity.
Qed.

(** ** Empty input (lines 12-14) *)

(** C3, amended. When the required settings are present and the
    content of the input file trims to the empty string, nothing goes
    through [boto3] and the exit status is not 0; when moreover [print]
    does not raise on the diagnostic, the run is: open, read, print the
    diagnostic, close, and [SystemExit(1)]; and when the flush of
    standard output at shutdown does not fail either, the exit status
    is 1. *)
Theorem C3_blank_input_exits_without_network (w : World) (b k content : pystr) :
  environ w !! py "S3_BUCKET" = Some b ->
  environ w !! py "S3_KEY" = Some k ->
  fs w (configured_text_file w) = inr (inr content) ->
  strip content = [] ->
  List.filter is_network (calls (run w).1) = []
  /\ exit_status w (run w) <> 0%Z
  /\ (print_error w (py "Text file is empty.") = None ->
      run w =
        ([Event (Open (configured_text_file w)) None;
          Event (Read (configured_text_file w)) None;
          Event (Print (py "Text file is empty.")) None;
          Event (Close (configured_text_file w)) None],
         Raise (SystemExit 1))
      /\ (stdout_flush_error w = false -> exit_status w (run w) = 1%Z)).
Proof.
  intros Hb Hk Hfs Hs.
  unfold exit_status, run. rewrite (main_resolved w b k [] Hb Hk).
  unfold_program. rewrite Hfs. simpl. rewrite Hs. simpl.
  destruct (print_error w (py "Text file is empty.")) as [e|]; simpl.
  - split; [reflexivity|]. split; [|discriminate].
    destruct (stdout_flush_error w), (stderr_flush_error w); discriminate.
  - split; [reflexivity|]. split.
    + destruct (stdout_flush_error w); discriminate.
    + intros _. split; [reflexivity|]. intros ->. reflexivity.
Qed.

Lemma C3_witness :
  run blank_world =
    ([Event (Open (py "speech.txt")) None;
      Event (Read (py "speech.txt")) None;
      Event (Print (py "Text file is empty.")) None;
      Event (Close (py "speech.txt")) None],
     Raise (SystemExit 1))
  /\ exit_status blank_world (run blank_world) = 1%Z
  /\ List.filter is_network (calls (run blank_world).1) = [].
Proof.
  destruct (C3_blank_input_exits_without_network blank_world
              (py "my-bucket") (py "out/hello.mp3") (py "   " ++ [10%N] ++ py "  "))
    as (Hnet & _ & Hprint).
  - vm_compute. reflexivity.
  - vm_compute. reflexivity.
  - vm_compute. reflexivity.
  - vm_compute. reflexivity.
  - destruct Hprint as [Hrun Hstatus]; [vm_compute; reflexivity|].
    split; [exact Hrun|]. split; [|exact Hnet].
    apply Hstatus. vm_compute. reflexivity.
Defined.

(** C3 as it is worded does not hold: with the required settings
    present and a blank input file, on a buffered standard output that
    cannot be written the diagnostic is accepted by [print], the flush
    at shutdown fails and the exit status is 120, not 1. *)
Lemma C3_counterexample :
  environ blank_full_stdout_world !! py "S3_BUCKET" = Some (py "my-bucket")
  /\ environ blank_full_stdout_world !! py "S3_KEY" = Some (py "out/hello.mp3")
  /\ fs blank_full_stdout_world (configured_text_file blank_full_stdout_world)
     = inr (inr (py "   " ++ [10%N] ++ py "  "))
  /\ strip (py "   " ++ [10%N] ++ py "  ") = []
  /\ exit_status blank_full_stdout_world (run blank_full_stdout_world) = 120%Z
  /\ exit_status blank_full_stdout_world (run blank_full_stdout_world) <> 1%Z.
Proof.
  repeat split; try (vm_compute; reflexivity). vm_compute. discriminate.
Qed.

(** ** Configuration (lines 4-8) *)

(** C4. When [S3_BUCKET] or [S3_KEY] is not in the environment, the run
    ends in the [KeyError] of a required and absent name, and nothing
    goes through [boto3]: no client, no synthesis, no upload. The exit
    status is 1, or 120 when the traceback cannot be flushed to standard
    error. *)
Theorem C4_missing_setting_no_network (w : World) :
  environ w !! py "S3_BUCKET" = None \/ environ w !! py "S3_KEY" = None ->
  (exists key,
      (run w).2 = Raise (KeyError key)
      /\ (key = py "S3_BUCKET" \/ key = py "S3_KEY")
      /\ environ w !! key = None)
  /\ exit_status w (run w) = (if stderr_flush_error w then 120 else 1)%Z
  /\ List.filter is_network (calls (run w).1) = [].
Proof.
  intros H. unfold exit_status, run, main, bind, os_environ_get, os_environ_getitem.
  destruct (environ w !! py "S3_BUCKET") as [b|] eqn:Hb.
  - destruct H as [H|H]; [discriminate H|]. rewrite H. simpl.
    split; [|split; reflexivity].
    exists (py "S3_KEY"). auto.
  - simpl. split; [|split; reflexivity].
    exists (py "S3_BUCKET"). auto.
Qed.

Lemma C4_witness :
  (exists key,
      (run no_key_world).2 = Raise (KeyError key)
      /\ (key = py "S3_BUCKET" \/ key = py "S3_KEY")
      /\ environ no_key_world !! key = None)
  /\ exit_status no_key_world (run no_key_world) = 1%Z
  /\ List.filter is_network (calls (run no_key_world).1) = [].
Proof.
  apply (C4_missing_setting_no_network no_key_world).
  right. vm_compute. reflexivity.
Defined.

(** The settings that lines 4, 7 and 8 resolve are the ones the run
    opens its file with, builds its clients with and synthesizes
    with. *)
Lemma settings_in_use (w : World) :
  opens_file w (configured_text_file w)
  /\ uses_region w (configured_region w)
  /\ uses_voice w (configured_voice w).
Proof.
  unfold opens_file, uses_region, uses_voice. repeat split.
  - intros p e. all_runs; intros Hin; in_log Hin; inversion Hin; reflexivity.
  - intros b k Hb Hk. unfold run. rewrite (main_resolved w b k [] Hb Hk).
    unfold_program. simpl. repeat answer; eexists; reflexivity.
  - intros service r e. all_runs; intros Hin; in_log Hin; inversion Hin; reflexivity.
  - intros b k content Hb Hk Hfs Hne.
    unfold run. rewrite (main_resolved w b k [] Hb Hk).
    unfold_program. rewrite Hfs. simpl.
    destruct (strip content) as [|c0 text]; [congruence|]. simpl.
    repeat answer; eexists; simpl; do 3 right; left; reflexivity.
  - intros c text fmt v e. all_runs; intros Hin; in_log Hin; inversion Hin; reflexivity.
  - intros b k content Hb Hk Hfs Hne Hc.
    unfold run. rewrite (main_resolved w b k [] Hb Hk).
    unfold_program. rewrite Hfs. simpl.
    destruct (strip content) as [|c0 text]; [congruence|]. simpl.
    rewrite Hc. simpl.
    repeat answer; eexists; simpl; do 4 right; left; reflexivity.
Qed.

(** C5. In every environment without [TEXT_FILE], the file the run
    opens is ["speech.txt"]; without [VOICE_ID], the voice of every
    synthesis call is ["Joanna"]; without [AWS_REGION], the region of
    every client is ["us-east-1"]. In each case the call is made with
    that value as soon as the run gets that far. *)
Theorem C5_defaults_reach_the_calls (w : World) :
  (environ w !! py "TEXT_FILE" = None -> opens_file w (py "speech.txt"))
  /\ (environ w !! py "VOICE_ID" = None -> uses_voice w (py "Joanna"))
  /\ (environ w !! py "AWS_REGION" = None -> uses_region w (py "us-east-1")).
Proof.
  destruct (settings_in_use w) as (Hfile & Hregion & Hvoice).
  unfold configured_text_file in Hfile.
  unfold configured_region in Hregion.
  unfold configured_voice in Hvoice.
  split; [|split].
  - intros H. rewrite H in Hfile. exact Hfile.
  - intros H. rewrite H in Hvoice. exact Hvoice.
  - intros H. rewrite H in Hregion. exact Hregion.
Qed.

Lemma C5_witness :
  head (run hello_world).1 = Some (Event (Open (py "speech.txt")) None)
  /\ In (Event (Boto3Client (py "polly") (py "us-east-1")) None) (run hello_world).1
  /\ In (Event (SynthesizeSpeech (Client (py "polly") (py "us-east-1"))
                  (py "Hello world") (py "mp3") (py "Joanna")) None)
        (run hello_world).1.
Proof.
  destruct (C5_defaults_reach_the_calls hello_world) as (Hfile & Hvoice & Hregion).
  assert (Hf : opens_file hello_world (py "speech.txt"))
    by (apply Hfile; vm_compute; reflexivity).
  assert (Hv : uses_voice hello_world (py "Joanna"))
    by (apply Hvoice; vm_compute; reflexivity).
  assert (Hr : uses_region hello_world (py "us-east-1"))
    by (apply Hregion; vm_compute; reflexivity).
  clear Hfile Hvoice Hregion. vm_compute. tauto.
Defined.

(** ** The report (line 23) *)

(** C6, amended. In a run in which the upload succeeded (the synthesis
    before it has then succeeded too) and [print] does not raise on the
    confirmation, the bucket and key uploaded to are the ones of the
    environment, the last thing the program does is print
    ["Uploaded s3://<bucket>/<key>"] with exactly these two values and
    [main] returns; when the flush of standard output at shutdown does
    not fail either, the exit status is 0. *)
Theorem C6_success_is_reported_when_stdout_works
    (w : World) (c : client) (b k : pystr) (body : pybytes) (ct : pystr) :
  In (Event (PutObject c b k body ct) None) (run w).1 ->
  print_error w (py "Uploaded s3://" ++ b ++ py "/" ++ k) = None ->
  (exists c' text fmt voice,
      In (Event (SynthesizeSpeech c' text fmt voice) None) (run w).1)
  /\ environ w !! py "S3_BUCKET" = Some b
  /\ environ w !! py "S3_KEY" = Some k
  /\ last (run w).1 =
       Some (Event (Print (py "Uploaded s3://" ++ b ++ py "/" ++ k)) None)
  /\ (run w).2 = Ok tt
  /\ (stdout_flush_error w = false -> exit_status w (run w) = 0%Z).
Proof.
  unfold exit_status.
  all_runs; intros Hin; in_log Hin; inversion Hin; subst; clear Hin;
    intros Hp; try congruence.
  repeat split; eauto 10.
  intros ->. reflexivity.
Qed.

Lemma C6_witness :
  last (run hello_world).1 =
    Some (Event (Print (py "Uploaded s3://my-bucket/out/hello.mp3")) None)
  /\ (run hello_world).2 = Ok tt
  /\ exit_status hello_world (run hello_world) = 0%Z.
Proof.
  destruct (C6_success_is_reported_when_stdout_works hello_world
              (Client (py "s3") (py "us-east-1"))
              (py "my-bucket") (py "out/hello.mp3") hello_audio (py "audio/mpeg"))
    as (_ & _ & _ & Hlast & Hret & Hstatus).
  - vm_compute. tauto.
  - vm_compute. reflexivity.
  - split; [exact Hlast|]. split; [exact Hret|].
    apply Hstatus. vm_compute. reflexivity.
Defined.

(** C6 as it is worded does not hold: in a run in which both service
    calls have succeeded and [print] raises on the confirmation, no
    message is emitted, the exception of [print] leaves [main] and the
    exit status is 1, not 0. *)
Lemma C6_counterexample :
  In (Event (SynthesizeSpeech (Client (py "polly") (py "us-east-1"))
               (py "Hello world") (py "mp3") (py "Joanna")) None)
     (run unwritable_stdout_world).1
  /\ In (Event (PutObject (Client (py "s3") (py "us-east-1"))
                  (py "my-bucket") (py "out/hello.mp3") hello_audio
                  (py "audio/mpeg")) None)
        (run unwritable_stdout_world).1
  /\ (forall msg, ~ In (Event (Print msg) None) (run unwritable_stdout_world).1)
  /\ (run unwritable_stdout_world).2 = Raise (External (ExtError "OSError"))
  /\ exit_status unwritable_stdout_world (run unwritable_stdout_world) = 1%Z.
Proof.
  split; [vm_compute; tauto|]. split; [vm_compute; tauto|].
  split; [|split; vm_compute; reflexivity].
  intros msg Hin. vm_compute in Hin.
  repeat (destruct Hin as [Hin|Hin]; try discriminate Hin). exact Hin.
Qed.

(** ** The region (lines 8, 16 and 20) *)

(** C7. In every run, every client is built with the configured region
    ([AWS_REGION], or ["us-east-1"] without it), the synthesis goes
    through the ["polly"] client of that region and the upload through
    the ["s3"] client of that region; and a run that completes has built
    both. *)
Theorem C7_one_region_for_both_clients (w : World) :
  (forall service region e,
      In (Event (Boto3Client service region) e) (run w).1 ->
      region = configured_region w)
  /\ (forall c text fmt voice e,
         In (Event (SynthesizeSpeech c text fmt voice) e) (run w).1 ->
         c = Client (py "polly") (configured_region w))
  /\ (forall c b k body ct e,
         In (Event (PutObject c b k body ct) e) (run w).1 ->
         c = Client (py "s3") (configured_region w))
  /\ ((run w).2 = Ok tt ->
      In (Event (Boto3Client (py "polly") (configured_region w)) None) (run w).1
      /\ In (Event (Boto3Client (py "s3") (configured_region w)) None) (run w).1).
Proof.
  split; [|split; [|split]].
  - intros service region e. all_runs; intros Hin; simpl in Hin;
      repeat (destruct Hin as [Hin|Hin]; try discriminate Hin);
      try contradiction; injection Hin as _ <- _; reflexivity.
  - intros c text fmt voice e. all_runs; intros Hin; simpl in Hin;
      repeat (destruct Hin as [Hin|Hin]; try discriminate Hin);
      try contradiction; injection Hin as <- _ _ _ _; reflexivity.
  - intros c b k body ct e. all_runs; intros Hin; simpl in Hin;
      repeat (destruct Hin as [Hin|Hin]; try discriminate Hin);
      try contradiction; injection Hin as <- _ _ _ _ _; reflexivity.
  - all_runs; intros Hret; try discriminate Hret. simpl. tauto.
Qed.

Lemma C7_witness :
  In (Event (Boto3Client (py "polly") (py "eu-west-1")) None) (run custom_world).1
  /\ In (Event (Boto3Client (py "s3") (py "eu-west-1")) None) (run custom_world).1.
Proof.
  apply (C7_one_region_for_both_clients custom_world).
  vm_compute. reflexivity.
Defined.

(** ** Errors *)

(** C8. In every run: no operation is attempted twice; a call that
    raises ends the run with that very exception, uncaught; after it the
    program does nothing but close the input file if it was open;
    whenever an exception leaves [main], the [SystemExit] of the empty
    input included, the exit status is not 0; and a run that completes
    has attempted each operation exactly once, in the order of the
    source. *)
Theorem C8_errors_propagate_without_retry (w : World) :
  List.NoDup (map operation_of (calls (run w).1))
  /\ (forall ev e,
         In ev (run w).1 -> ev_error ev = Some e ->
         (run w).2 = Raise (External e))
  /\ forallb is_close (calls (after_first_error (run w).1)) = true
  /\ (forall x, (run w).2 = Raise x -> exit_status w (run w) <> 0%Z)
  /\ ((run w).2 = Ok tt ->
      map operation_of (calls (run w).1) =
        [OpOpen; OpRead; OpClose; OpClient (py "polly"); OpSynthesize;
         OpStreamRead; OpClient (py "s3"); OpPut; OpPrint]).
Proof.
  split; [|split; [|split; [|split]]].
  - all_runs;
      repeat (apply List.NoDup_cons;
                [simpl; intros Hin;
                 repeat (destruct Hin as [Hin|Hin]; try discriminate Hin);
                 exact Hin|]);
      apply List.NoDup_nil.
  - intros ev e. all_runs; intros Hin Herr; simpl in Hin;
      repeat (destruct Hin as [Hin|Hin];
                [subst ev; simpl in Herr; try discriminate Herr|]);
      try contradiction; congruence.
  - all_runs; reflexivity.
  - intros x. unfold exit_status.
    all_runs; intros Hx; try discriminate Hx;
      destruct (stdout_flush_error w), (stderr_flush_error w); discriminate.
  - all_runs; intros Hret; try discriminate Hret; reflexivity.
Qed.

Lemma C8_witness :
  (run upload_fails_world).2 = Raise (External (ExtError "ClientError"))
  /\ exit_status upload_fails_world (run upload_fails_world) <> 0%Z.
Proof.
  destruct (C8_errors_propagate_without_retry upload_fails_world)
    as (_ & Hraise & _ & Hstatus & _).
  assert (Hrun : (run upload_fails_world).2 = Raise (External (ExtError "ClientError"))).
  { apply (Hraise (Event (PutObject (Client (py "s3") (py "us-east-1"))
                            (py "my-bucket") (py "out/hello.mp3") hello_audio
                            (py "audio/mpeg"))
                         (Some (ExtError "ClientError")))).
    - vm_compute. tauto.
    - reflexivity. }
  split; [exact Hrun|].
  exact (Hstatus _ Hrun).
Defined.

(** C9. When [S3_BUCKET] or [S3_KEY] is not in the environment, the run
    ends in [KeyError] without any access to the input file, and it is
    the same run whatever the file system and the services would have
    answered: a missing, unreadable or blank input file changes
    nothing. *)
Theorem C9_configuration_precedes_file_read (w : World) :
  environ w !! py "S3_BUCKET" = None \/ environ w !! py "S3_KEY" = None ->
  List.filter is_file_access (calls (run w).1) = []
  /\ (exists key, (run w).2 = Raise (KeyError key))
  /\ (forall w', environ w' = environ w -> run w' = run w).
Proof.
  intros H.
  assert (Hsame : forall w', environ w' = environ w -> run w' = run w).
  { intros w' He.
    assert (H' : environ w' !! py "S3_BUCKET" = None
                 \/ environ w' !! py "S3_KEY" = None) by (rewrite He; exact H).
    unfold run, main, bind, os_environ_get, os_environ_getitem. rewrite He.
    destruct (environ w !! py "S3_BUCKET") as [b|].
    - destruct H as [H|H]; [discriminate H|]. rewrite H. reflexivity.
    - reflexivity. }
  split; [|split; [|exact Hsame]];
    destruct (main_unconfigured w H) as [Hrun|Hrun]; rewrite Hrun; simpl; eauto.
Qed.

Lemma C9_witness :
  List.filter is_file_access (calls (run no_key_world).1) = []
  /\ (exists key, (run no_key_world).2 = Raise (KeyError key))
  /\ (forall w', environ w' = environ no_key_world -> run w' = run no_key_world).
Proof.
  apply (C9_configuration_precedes_file_read no_key_world).
  right. vm_compute. reflexivity.
Defined.

(** C10. A variable that is in the environment counts as set whatever
    its value [v], the empty string included: with [TEXT_FILE] set to
    [v] the file the run opens is [v], with [VOICE_ID] set to [v] the
    voice of every synthesis call is [v], with [AWS_REGION] set to [v]
    the region of every client is [v]; the default is not taken. In
    each case the call is made with [v] as soon as the run gets that
    far. *)
Theorem C10_empty_value_counts_as_set (w : World) (v : pystr) :
  (environ w !! py "TEXT_FILE" = Some v -> opens_file w v)
  /\ (environ w !! py "VOICE_ID" = Some v -> uses_voice w v)
  /\ (environ w !! py "AWS_REGION" = Some v -> uses_region w v).
Proof.
  destruct (settings_in_use w) as (Hfile & Hregion & Hvoice).
  unfold configured_text_file in Hfile.
  unfold configured_region in Hregion.
  unfold configured_voice in Hvoice.
  split; [|split].
  - intros H. rewrite H in Hfile. exact Hfile.
  - intros H. rewrite H in Hvoice. exact Hvoice.
  - intros H. rewrite H in Hregion. exact Hregion.
Qed.

Lemma C10_witness :
  exists e,
    In (Event (SynthesizeSpeech (Client (py "polly") (py "eu-west-1"))
                 (py "hi") (py "mp3") []) e)
       (run custom_world).1.
Proof.
  destruct (C10_empty_value_counts_as_set custom_world []) as (_ & Hvoice & _).
  destruct Hvoice as [_ Hcall]; [vm_compute; reflexivity|].
  apply (Hcall (py "b") (py "k") (py "hi")).
  - vm_compute. reflexivity.
  - vm_compute. reflexivity.
  - vm_compute. reflexivity.
  - vm_compute. discriminate.
  - vm_compute. reflexivity.
Defined.

(** * Further properties of [main] *)

(** ** The input file (lines 10-14) *)

(** X1. A file that was opened is closed, and this happens before
    anything goes through [boto3] and after the last access to the
    file. *)
Theorem file_closed_before_any_service_call (w : World) (path : pystr) :
  In (Event (Open path) None) (run w).1 ->
  exists t1 t2,
    (run w).1 = t1 ++ Event (Close path) None :: t2
    /\ List.filter is_network (calls t1) = []
    /\ List.filter is_file_access (calls t2) = [].
Proof.
  all_runs; intros Hin; in_log Hin; inversion Hin; subst; clear Hin;
    first [ solve [eexists [_; _], _; simpl; split; [reflexivity|split; reflexivity]]
          | solve [eexists [_; _; _], _; simpl; split; [reflexivity|split; reflexivity]] ].
Qed.

Lemma file_closed_before_any_service_call_witness :
  exists t1 t2,
    (run hello_world).1 = t1 ++ Event (Close (py "speech.txt")) None :: t2
    /\ List.filter is_network (calls t1) = []
    /\ List.filter is_file_access (calls t2) = [].
Proof.
  apply (file_closed_before_any_service_call hello_world (py "speech.txt")).
  vm_compute. tauto.
Defined.

(** X2. With the required settings present, when the input file cannot
    be opened the run is that one failed [open] and its exception: no
    read, no close, nothing through [boto3]; the exit status is 1, or
    120 when the traceback cannot be flushed to standard error. *)
Theorem open_failure_ends_the_run (w : World) (b k : pystr) (e : ext_error) :
  environ w !! py "S3_BUCKET" = Some b ->
  environ w !! py "S3_KEY" = Some k ->
  fs w (configured_text_file w) = inl e ->
  run w = ([Event (Open (configured_text_file w)) (Some e)], Raise (External e))
  /\ exit_status w (run w) = (if stderr_flush_error w then 120 else 1)%Z.
Proof.
  intros Hb Hk Hfs.
  assert (Hrun : run w =
    ([Event (Open (configured_text_file w)) (Some e)], Raise (External e))).
  { unfold run. rewrite (main_resolved w b k [] Hb Hk).
    unfold_program. rewrite Hfs. reflexivity. }
  rewrite Hrun. split; reflexivity.
Qed.

Lemma open_failure_ends_the_run_witness :
  run no_file_world =
    ([Event (Open (py "speech.txt")) (Some (ExtError "FileNotFoundError"))],
     Raise (External (ExtError "FileNotFoundError")))
  /\ exit_status no_file_world (run no_file_world) = 1%Z.
Proof.
  apply (open_failure_ends_the_run no_file_world (py "my-bucket") (py "out/hello.mp3")).
  - vm_compute. reflexivity.
  - vm_compute. reflexivity.
  - vm_compute. reflexivity.
Defined.

(** X3. With the required settings present, when the input file opens
    and [read()] raises, the file is closed all the same, the exception
    of [read()] leaves [main] and nothing goes through [boto3]; the exit
    status is 1, or 120 when the traceback cannot be flushed to standard
    error. *)
Theorem read_failure_closes_the_file (w : World) (b k : pystr) (e : ext_error) :
  environ w !! py "S3_BUCKET" = Some b ->
  environ w !! py "S3_KEY" = Some k ->
  fs w (configured_text_file w) = inr (inl e) ->
  run w =
    ([Event (Open (configured_text_file w)) None;
      Event (Read (configured_text_file w)) (Some e);
      Event (Close (configured_text_file w)) None],
     Raise (External e))
  /\ exit_status w (run w) = (if stderr_flush_error w then 120 else 1)%Z.
Proof.
  intros Hb Hk Hfs.
  assert (Hrun : run w =
    ([Event (Open (configured_text_file w)) None;
      Event (Read (configured_text_file w)) (Some e);
      Event (Close (configured_text_file w)) None],
     Raise (External e))).
  { unfold run. rewrite (main_resolved w b k [] Hb Hk).
    unfold_program. rewrite Hfs. reflexivity. }
  rewrite Hrun. split; reflexivity.
Qed.

Lemma read_failure_closes_the_file_witness :
  run bad_encoding_world =
    ([Event (Open (py "speech.txt")) None;
      Event (Read (py "speech.txt")) (Some (ExtError "UnicodeDecodeError"));
      Event (Close (py "speech.txt")) None],
     Raise (External (ExtError "UnicodeDecodeError")))
  /\ exit_status bad_encoding_world (run bad_encoding_world) = 1%Z.
Proof.
  apply (read_failure_closes_the_file bad_encoding_world
           (py "my-bucket") (py "out/hello.mp3")).
  - vm_compute. reflexivity.
  - vm_compute. reflexivity.
  - vm_compute. reflexivity.
Defined.

(** X4. With the required settings present and the input file read as
    [content], the run ends in [SystemExit(1)] exactly when [content] is
    made of whitespace only (or is empty) and [print] does not raise on
    the diagnostic. *)
Theorem system_exit_iff_blank_and_printed (w : World) (b k content : pystr) :
  environ w !! py "S3_BUCKET" = Some b ->
  environ w !! py "S3_KEY" = Some k ->
  fs w (configured_text_file w) = inr (inr content) ->
  (run w).2 = Raise (SystemExit 1)
  <-> forallb isspace content = true
      /\ print_error w (py "Text file is empty.") = None.
Proof.
  intros Hb Hk Hfs. rewrite <- strip_nil_iff.
  unfold run. rewrite (main_resolved w b k [] Hb Hk).
  unfold_program. rewrite Hfs. simpl.
  destruct (strip content) as [|c0 text] eqn:Hs; simpl.
  - destruct (print_error w (py "Text file is empty.")) as [e|]; simpl.
    + split; [discriminate|]. intros [_ H]. discriminate H.
    + split; [split; reflexivity|reflexivity].
  - repeat answer; (split; [discriminate|]); intros [H _]; discriminate H.
Qed.

Lemma system_exit_iff_blank_and_printed_witness :
  (run blank_world).2 = Raise (SystemExit 1)
  <-> forallb isspace (py "   " ++ [10%N] ++ py "  ") = true
      /\ print_error blank_world (py "Text file is empty.") = None.
Proof.
  apply (system_exit_iff_blank_and_printed blank_world
           (py "my-bucket") (py "out/hello.mp3")).
  - vm_compute. reflexivity.
  - vm_compute. reflexivity.
  - vm_compute. reflexivity.
Defined.

(** ** What is sent to the services (lines 16-21) *)

(** X5. Whatever [synthesize_speech] is called with in a run, its
    [Text] is the trimmed content of the configured input file and is
    not empty, its [OutputFormat] is ["mp3"] and its [VoiceId] the
    configured voice. *)
Theorem synthesis_only_of_trimmed_file_text
    (w : World) (c : client) (text fmt voice : pystr) (e : option ext_error) :
  In (Event (SynthesizeSpeech c text fmt voice) e) (run w).1 ->
  (exists content,
      fs w (configured_text_file w) = inr (inr content)
      /\ text = strip content)
  /\ text <> []
  /\ fmt = py "mp3"
  /\ voice = configured_voice w.
Proof.
  all_runs; intros Hin; in_log Hin; inversion Hin; subst; clear Hin;
    (split; [eexists; split; [reflexivity|congruence]|]);
    (split; [discriminate|split; reflexivity]).
Qed.

Lemma synthesis_only_of_trimmed_file_text_witness :
  (exists content,
      fs hello_world (configured_text_file hello_world) = inr (inr content)
      /\ py "Hello world" = strip content)
  /\ py "Hello world" <> []
  /\ py "mp3" = py "mp3"
  /\ py "Joanna" = configured_voice hello_world.
Proof.
  apply (synthesis_only_of_trimmed_file_text hello_world
           (Client (py "polly") (py "us-east-1")) (py "Hello world") (py "mp3")
           (py "Joanna") None).
  vm_compute. tauto.
Defined.

(** X6. The text sent to the synthesis is the content of the file
    without a run of whitespace at each end; it neither starts nor ends
    with whitespace, and what lies between is untouched. *)
Theorem synthesis_text_has_no_outer_whitespace
    (w : World) (c : client) (text fmt voice : pystr) (e : option ext_error) :
  In (Event (SynthesizeSpeech c text fmt voice) e) (run w).1 ->
  exists content l r,
    fs w (configured_text_file w) = inr (inr content)
    /\ content = l ++ text ++ r
    /\ forallb isspace l = true /\ forallb isspace r = true
    /\ (forall a s, text = a :: s -> isspace a = false)
    /\ (forall z s, text = s ++ [z] -> isspace z = false).
Proof.
  intros Hin.
  assert (Hfrom : exists content,
             fs w (configured_text_file w) = inr (inr content)
             /\ text = strip content).
  { revert Hin.
    all_runs; intros Hin; in_log Hin; inversion Hin; subst; clear Hin;
      (eexists; split; [reflexivity|congruence]). }
  destruct Hfrom as (content & Hfs & ->).
  destruct (strip_split content) as (l & r & Hsplit & Hl & Hr & Hhead & Hlast).
  exists content, l, r. auto 10.
Qed.

Lemma synthesis_text_has_no_outer_whitespace_witness :
  exists content l r,
    fs hello_world (configured_text_file hello_world) = inr (inr content)
    /\ content = l ++ py "Hello world" ++ r
    /\ forallb isspace l = true /\ forallb isspace r = true
    /\ (forall a s, py "Hello world" = a :: s -> isspace a = false)
    /\ (forall z s, py "Hello world" = s ++ [z] -> isspace z = false).
Proof.
  apply (synthesis_text_has_no_outer_whitespace hello_world
           (Client (py "polly") (py "us-east-1")) (py "Hello world") (py "mp3")
           (py "Joanna") None).
  vm_compute. tauto.
Defined.

(** X7. Whatever [put_object] is called with in a run, its [Bucket]
    and [Key] are the ones of the environment, its [ContentType] is
    ["audio/mpeg"], and its [Body] is what the audio stream of the
    synthesis of the trimmed file text gave: nothing else is ever
    uploaded. *)
Theorem upload_only_of_synthesis_output
    (w : World) (c : client) (b k : pystr) (body : pybytes) (ct : pystr)
    (e : option ext_error) :
  In (Event (PutObject c b k body ct) e) (run w).1 ->
  environ w !! py "S3_BUCKET" = Some b
  /\ environ w !! py "S3_KEY" = Some k
  /\ ct = py "audio/mpeg"
  /\ exists content resp,
       fs w (configured_text_file w) = inr (inr content)
       /\ polly_answer w (Client (py "polly") (configured_region w))
            (strip content) (py "mp3") (configured_voice w) = inr resp
       /\ AudioStream_read resp = inr body.
Proof.
  all_runs; intros Hin; in_log Hin; inversion Hin; subst; clear Hin;
    (split; [reflexivity|split; [reflexivity|split; [reflexivity|]]]);
    (eexists _, _; split; [reflexivity|split; [|eassumption]]);
    match goal with H : strip _ = _ |- _ => rewrite H end; assumption.
Qed.

Lemma upload_only_of_synthesis_output_witness :
  environ hello_world !! py "S3_BUCKET" = Some (py "my-bucket")
  /\ environ hello_world !! py "S3_KEY" = Some (py "out/hello.mp3")
  /\ py "audio/mpeg" = py "audio/mpeg"
  /\ exists content resp,
       fs hello_world (configured_text_file hello_world) = inr (inr content)
       /\ polly_answer hello_world
            (Client (py "polly") (configured_region hello_world))
            (strip content) (py "mp3") (configured_voice hello_world) = inr resp
       /\ AudioStream_read resp = inr hello_audio.
Proof.
  apply (upload_only_of_synthesis_output hello_world
           (Client (py "s3") (py "us-east-1")) (py "my-bucket") (py "out/hello.mp3")
           hello_audio (py "audio/mpeg") None).
  vm_compute. tauto.
Defined.

(** X8. The storage client is built only in a run in which the
    synthesis call and the read of its audio stream have both
    succeeded. *)
Theorem no_storage_client_without_audio
    (w : World) (region : pystr) (e : option ext_error) :
  In (Event (Boto3Client (py "s3") region) e) (run w).1 ->
  In (Event StreamRead None) (run w).1
  /\ exists c text fmt voice,
       In (Event (SynthesizeSpeech c text fmt voice) None) (run w).1.
Proof.
  all_runs; intros Hin; in_log Hin;
    (split; [simpl; tauto|]);
    (eexists _, _, _, _; simpl; do 4 right; left; reflexivity).
Qed.

Lemma no_storage_client_without_audio_witness :
  In (Event StreamRead None) (run upload_fails_world).1
  /\ exists c text fmt voice,
       In (Event (SynthesizeSpeech c text fmt voice) None) (run upload_fails_world).1.
Proof.
  apply (no_storage_client_without_audio upload_fails_world (py "us-east-1") None).
  vm_compute. tauto.
Defined.

(** ** What the run reports (lines 13-14, 23 and the exit status) *)

(** X9. Anything the program prints, or tries to, is either the
    diagnostic of the empty input, or the line
    ["Uploaded s3://<bucket>/<key>"] with the bucket and key of an upload
    that has succeeded; when the diagnostic is printed the run ends in
    [SystemExit(1)], when the line is printed [main] returns. A run in
    which the upload has not succeeded never reports one. *)
Theorem nothing_reported_but_what_happened
    (w : World) (msg : pystr) (e : option ext_error) :
  In (Event (Print msg) e) (run w).1 ->
  (msg = py "Text file is empty."
   /\ (e = None -> (run w).2 = Raise (SystemExit 1)))
  \/ (exists c b k body,
         msg = py "Uploaded s3://" ++ b ++ py "/" ++ k
         /\ In (Event (PutObject c b k body (py "audio/mpeg")) None) (run w).1
         /\ (e = None -> (run w).2 = Ok tt)).
Proof.
  all_runs; intros Hin; in_log Hin; inversion Hin; subst; clear Hin;
    first [ left; split; [reflexivity|]; intros He; first [discriminate He|reflexivity]
          | right; eexists _, _, _, _; split; [reflexivity|];
            split; [simpl; do 7 right; left; reflexivity|];
            intros He; first [discriminate He|reflexivity] ].
Qed.

Lemma nothing_reported_but_what_happened_witness :
  (py "Text file is empty." = py "Text file is empty."
   /\ (@None ext_error = None -> (run blank_world).2 = Raise (SystemExit 1)))
  \/ (exists c b k body,
         py "Text file is empty." = py "Uploaded s3://" ++ b ++ py "/" ++ k
         /\ In (Event (PutObject c b k body (py "audio/mpeg")) None) (run blank_world).1
         /\ (@None ext_error = None -> (run blank_world).2 = Ok tt)).
Proof.
  apply (nothing_reported_but_what_happened blank_world (py "Text file is empty.") None).
  vm_compute. tauto.
Defined.

(** X10. The exit status of a run is 0, 1 or 120, and it is 0 exactly
    when the upload has succeeded, the confirmation has been printed and
    the flush of standard output at shutdown has not failed. *)
Theorem exit_status_zero_iff_uploaded_and_reported (w : World) :
  (exit_status w (run w) = 0%Z \/ exit_status w (run w) = 1%Z
   \/ exit_status w (run w) = 120%Z)
  /\ (exit_status w (run w) = 0%Z <->
      (exists c b k body ct,
          In (Event (PutObject c b k body ct) None) (run w).1
          /\ In (Event (Print (py "Uploaded s3://" ++ b ++ py "/" ++ k)) None)
               (run w).1)
      /\ stdout_flush_error w = false).
Proof.
  unfold exit_status.
  all_runs;
    destruct (stdout_flush_error w), (stderr_flush_error w); simpl;
    (split; [tauto|]);
    (split;
     [ intros Hz;
       first [ discriminate Hz
             | split; [|reflexivity];
               eexists _, _, _, _, _;
               (split; [do 7 right; left; reflexivity|do 8 right; left; reflexivity]) ]
     | intros [(c & b & k & body & ct & Hput & Hprint) Hflush];
       try discriminate Hflush;
       in_log Hput; in_log Hprint; reflexivity ]).
Qed.

Lemma exit_status_zero_iff_uploaded_and_reported_witness :
  (exists c b k body ct,
      In (Event (PutObject c b k body ct) None) (run hello_world).1
      /\ In (Event (Print (py "Uploaded s3://" ++ b ++ py "/" ++ k)) None)
           (run hello_world).1)
  /\ stdout_flush_error hello_world = false.
Proof.
  apply (proj2 (exit_status_zero_iff_uploaded_and_reported hello_world)).
  vm_compute. reflexivity.
Defined.

(** ** The order of things *)

(** X11. The required settings are looked up in the order of the source:
    without [S3_BUCKET] the [KeyError] names [S3_BUCKET], whether
    [S3_KEY] is there or not; with [S3_BUCKET] and without [S3_KEY] it
    names [S3_KEY]. In both cases nothing at all has been done. *)
Theorem first_missing_setting_is_named (w : World) :
  (environ w !! py "S3_BUCKET" = None ->
   run w = ([], Raise (KeyError (py "S3_BUCKET"))))
  /\ (forall b,
         environ w !! py "S3_BUCKET" = Some b ->
         environ w !! py "S3_KEY" = None ->
         run w = ([], Raise (KeyError (py "S3_KEY")))).
Proof.
  unfold run, main, bind, os_environ_get, os_environ_getitem. split.
  - intros ->. reflexivity.
  - intros b -> ->. reflexivity.
Qed.

Lemma first_missing_setting_is_named_witness :
  run bare_world = ([], Raise (KeyError (py "S3_BUCKET")))
  /\ run no_key_world = ([], Raise (KeyError (py "S3_KEY"))).
Proof.
  split.
  - apply (proj1 (first_missing_setting_is_named bare_world)).
    vm_compute. reflexivity.
  - apply (proj2 (first_missing_setting_is_named no_key_world) (py "my-bucket")).
    + vm_compute. reflexivity.
    + vm_compute. reflexivity.
Defined.

(** X12. A run is a straight line with one early exit: its operations
    are either the ones of the empty-input exit, or a beginning of the
    sequence open, read, close, synthesis client, synthesis, stream
    read, storage client, upload, print. *)
Theorem run_is_a_prefix_of_the_pipeline (w : World) :
  map operation_of (calls (run w).1) = blank_pipeline
  \/ map operation_of (calls (run w).1) `prefix_of` full_pipeline.
Proof.
  all_runs;
    first [ left; reflexivity
          | right; unfold full_pipeline; eexists; simpl; reflexivity ].
Qed.

(** X13. At most one call raises in a run, and it does exactly when the
    run ends in an exception from outside, which is then the exception of
    that call; a run that returns, or ends in [KeyError] or
    [SystemExit], has seen no call raise. *)
Theorem failed_calls_match_the_outcome (w : World) :
  map ev_error (List.filter has_error (run w).1) =
    match (run w).2 with
    | Raise (External e) => [Some e]
    | _ => []
    end.
Proof. all_runs; reflexivity. Qed.

(** ** Trimming, seen from the caller *)

Lemma rstrip_snoc (s : pystr) (z : N) :
  isspace z = false -> rstrip (s ++ [z]) = s ++ [z].
Proof.
  intros Hz. unfold rstrip. rewrite rev_app_distr. simpl. rewrite Hz.
  simpl. rewrite rev_involutive. reflexivity.
Qed.

Lemma strip_fixed (s : pystr) (a z : N) :
  head s = Some a -> isspace a = false ->
  last s = Some z -> isspace z = false ->
  strip s = s.
Proof.
  intros Ha Hsa Hz Hsz. unfold strip.
  destruct s as [|a' s']; [discriminate Ha|].
  simpl in Ha. injection Ha as ->.
  simpl. rewrite Hsa.
  apply last_Some in Hz. destruct Hz as [s'' ->].
  apply rstrip_snoc. exact Hsz.
Qed.

(** X15. Trimming twice is trimming once: a text that [strip] has
    produced is left as it is by [strip]. *)
Lemma strip_idempotent (s : pystr) : strip (strip s) = strip s.
Proof.
  destruct (strip_split s) as (_ & _ & _ & _ & _ & Hhead & Hlast).
  destruct (strip s) as [|a u] eqn:Hs; [reflexivity|].
  destruct (exists_last (l := a :: u)) as (u' & z & Hz); [discriminate|].
  apply (strip_fixed (a :: u) a z).
  - reflexivity.
  - exact (Hhead a u eq_refl).
  - rewrite Hz. apply last_snoc.
  - exact (Hlast z u' Hz).
Qed.

(** X14. With the required settings present and the synthesis client
    built, a file whose content neither starts nor ends with whitespace
    is sent to the synthesis as it is, whitespace inside included. *)
Theorem trimmed_content_is_sent_unchanged
    (w : World) (b k content : pystr) (a z : N) :
  environ w !! py "S3_BUCKET" = Some b ->
  environ w !! py "S3_KEY" = Some k ->
  fs w (configured_text_file w) = inr (inr content) ->
  head content = Some a -> isspace a = false ->
  last content = Some z -> isspace z = false ->
  client_error w (py "polly") (configured_region w) = None ->
  List.filter is_synthesize (calls (run w).1) =
    [SynthesizeSpeech (Client (py "polly") (configured_region w))
       content (py "mp3") (configured_voice w)].
Proof.
  intros Hb Hk Hfs Ha Hsa Hz Hsz Hc.
  pose proof (strip_fixed content a z Ha Hsa Hz Hsz) as Hs.
  unfold run. rewrite (main_resolved w b k [] Hb Hk).
  unfold_program. rewrite Hfs. simpl. rewrite Hs.
  destruct content as [|a' s']; [discriminate Ha|].
  simpl. rewrite Hc. simpl.
  repeat answer; reflexivity.
Qed.

Lemma trimmed_content_is_sent_unchanged_witness :
  List.filter is_synthesize (calls (run upload_fails_world).1) =
    [SynthesizeSpeech (Client (py "polly") (py "us-east-1"))
       (py "Hello world") (py "mp3") (py "Joanna")].
Proof.
  apply (trimmed_content_is_sent_unchanged upload_fails_world
           (py "my-bucket") (py "out/hello.mp3") (py "Hello world") 72%N 100%N).
  - vm_compute. reflexivity.
  - vm_compute. reflexivity.
  - vm_compute. reflexivity.
  - vm_compute. reflexivity.
  - vm_compute. reflexivity.
  - vm_compute. reflexivity.
  - vm_compute. reflexivity.
  - vm_compute. reflexivity.
Defined.
